(** * auto_areas: presence aggregation per area

    A shallow embedding of [custom_components/auto_areas/auto_area.py]:
    membership resolution ([get_all_entities], [is_valid], [get_area_id])
    and the presence tracker of [AutoArea]
    ([track_presence_sensor_state] with its two closures
    [all_states_are_off] and [handle_presence_state_change]). *)

From stdpp Require Import gmap strings list.

Open Scope string_scope.

(** ** Python runtime: exceptions and results *)

(** The exceptions the modelled code can raise. *)
Inductive exn : Type :=
| KeyError (key : string)
| AttributeError
| TypeError.

(** A call either returns a value or raises. *)
Inductive result (A : Type) : Type :=
| Ok (a : A)
| Raise (e : exn).
Arguments Ok {A} a.
Arguments Raise {A} e.

#[global] Instance result_ret : MRet result := λ A a, Ok a.
#[global] Instance result_bind : MBind result := λ A B f r,
  match r with
  | Ok a => f a
  | Raise e => Raise e
  end.

#[global] Instance exn_eq_dec : EqDecision exn.
Proof. solve_decision. Defined.

(** ** Python runtime: [str] objects

    [handle_presence_state_change] compares two state tokens with [is],
    which is object identity, and tests them with [in], which is equality
    of values. Both are needed, so a state token is a reference to a [str]
    object and the object store gives its characters. The literal [""] of
    the handler is a constant of the code object and has a reference of its
    own. *)

Inductive str_ref : Type :=
| EmptyLiteral
| StrAt (address : nat).

#[global] Instance str_ref_eq_dec : EqDecision str_ref.
Proof. solve_decision. Defined.

(** The object store: the characters of the [str] object at each address. *)
Definition str_heap : Type := nat → string.

Definition str_value (mem : str_heap) (r : str_ref) : string :=
  match r with
  | EmptyLiteral => ""
  | StrAt a => mem a
  end.

(** [a is b] *)
Definition py_is (a b : str_ref) : bool := bool_decide (a = b).

(** [x in xs] for a list of strings *)
Definition py_in (x : string) (xs : list string) : bool := bool_decide (x ∈ xs).

(** Truth value of an [Optional[str]]: [None] and [""] are false. *)
Definition truthy (o : option string) : bool :=
  match o with
  | Some s => negb (String.eqb s "")
  | None => false
  end.

(** ** Data model: the registries of the host *)

Module RegistryEntry.
Record t : Type := {
  entity_id : string;
  domain : string;
  device_class : option string;
  original_device_class : option string;
  area_id : option string;
  device_id : option string;
  disabled : bool
}.
End RegistryEntry.

Module DeviceEntry.
Record t : Type := { area_id : option string }.
End DeviceEntry.

Module AreaEntry.
Record t : Type := { name : string; id : string }.
End AreaEntry.

Module State.
Record t : Type := { state : str_ref }.
End State.

(** [entity_registry.entities]: a dict, iterated with [.items()] in
    insertion order. *)
Module EntityRegistry.
Record t : Type := { entities : list (string * RegistryEntry.t) }.
End EntityRegistry.

(** [device_registry.devices]: a dict read with the subscript
    [devices[device_id]]; a slot may hold [None]. *)
Module DeviceRegistry.
Record t : Type := { devices : gmap string (option DeviceEntry.t) }.
End DeviceRegistry.

(** [hass.states.get(entity_id)]: the live snapshot, [None] when the entity
    has no state. *)
Module HomeAssistant.
Record t : Type := { states_get : string → option State.t }.
End HomeAssistant.

(** The attributes of an [AutoArea] object. *)
Module AutoArea.
Record t : Type := {
  area_name : string;
  area_id : string;
  presence : bool;
  entities : list RegistryEntry.t
}.

(** [self.presence = b] *)
Definition set_presence (b : bool) (self : t) : t :=
  {| area_name := area_name self; area_id := area_id self;
     presence := b; entities := entities self |}.

(** [self.entities = es] *)
Definition set_entities (es : list RegistryEntry.t) (self : t) : t :=
  {| area_name := area_name self; area_id := area_id self;
     presence := presence self; entities := es |}.
End AutoArea.

(** ** Membership resolution *)

(** [is_valid(entity)] *)
Definition is_valid (entity : RegistryEntry.t) : bool :=
  if RegistryEntry.disabled entity then false else true.

(** [get_area_id(entity, device_registry)]: the subscript raises [KeyError]
    on a device id that is not a key of the dict. *)
Definition get_area_id (entity : RegistryEntry.t)
    (device_registry : DeviceRegistry.t) : result (option string) :=
  match RegistryEntry.area_id entity with
  | Some a => Ok (Some a)
  | None =>
      match RegistryEntry.device_id entity with
      | Some d =>
          match DeviceRegistry.devices device_registry !! d with
          | None => Raise (KeyError d)
          | Some (Some device) => Ok (DeviceEntry.area_id device)
          | Some None => Ok None
          end
      | None => Ok None
      end
  end.

(** The [for] loop of [get_all_entities], with the list [entities] built so
    far. [domains] is [None] when the caller leaves the default. *)
Fixpoint get_all_entities_loop (items : list (string * RegistryEntry.t))
    (device_registry : DeviceRegistry.t) (area_id : string)
    (domains : option (list string)) (entities : list RegistryEntry.t)
    : result (list RegistryEntry.t) :=
  match items with
  | [] => Ok entities
  | (_entity_id, entity) :: rest =>
      if negb (is_valid entity)
      then get_all_entities_loop rest device_registry area_id domains entities
      else
        a ← get_area_id entity device_registry;
        if negb (bool_decide (a = Some area_id))
        then get_all_entities_loop rest device_registry area_id domains entities
        else
          match domains with
          | None => Raise TypeError
          | Some ds =>
              if negb (py_in (RegistryEntry.domain entity) ds)
              then get_all_entities_loop rest device_registry area_id domains
                     entities
              else get_all_entities_loop rest device_registry area_id domains
                     (entities ++ [entity])
          end
  end.

(** [get_all_entities(entity_registry, device_registry, area_id, domains)] *)
Definition get_all_entities (entity_registry : EntityRegistry.t)
    (device_registry : DeviceRegistry.t) (area_id : string)
    (domains : option (list string)) : result (list RegistryEntry.t) :=
  get_all_entities_loop (EntityRegistry.entities entity_registry)
    device_registry area_id domains [].

(** ** The presence tracker *)

(** What [async_track_state_change(hass, entity_ids, action)] registers: the
    entity ids, and the list [presence_indicating_entities] that the action
    [handle_presence_state_change] has captured. *)
Module Subscription.
Record t : Type := {
  entity_ids : list string;
  captured : list RegistryEntry.t
}.
End Subscription.

(** What the closure [handle_presence_state_change] can reach: the area
    object [self] and the captured list. *)
Module Tracking.
Record t : Type := {
  self : AutoArea.t;
  presence_indicating_entities : list RegistryEntry.t
}.

Definition set_presence (b : bool) (env : t) : t :=
  {| self := AutoArea.set_presence b (self env);
     presence_indicating_entities := presence_indicating_entities env |}.
End Tracking.

(** [AutoArea.__init__], the attributes it sets. *)
Definition AutoArea_init (area : AreaEntry.t) : AutoArea.t :=
  {| AutoArea.area_name := AreaEntry.name area;
     AutoArea.area_id := AreaEntry.id area;
     AutoArea.presence := false;
     AutoArea.entities := [] |}.

(** [previous_state = from_state.state if from_state else ""]: a [State]
    object is true, only [None] takes the [else]. *)
Definition previous_state_of (from_state : option State.t) : str_ref :=
  match from_state with
  | Some s => State.state s
  | None => EmptyLiteral
  end.

Section Tracker.

(** The constants of [custom_components/auto_areas/const.py], which the
    module imports. *)
Variable DOMAINS : list string.
Variable PRESENCE_BINARY_SENSOR_DEVICE_CLASSES : list string.
Variable PRESENCE_BINARY_SENSOR_STATES : list string.

Variable mem : str_heap.

(** The condition of the list comprehension in
    [track_presence_sensor_state]: [in] binds tighter than [or], and the
    test of [device_class] against the list is commented out. *)
Definition is_presence_indicating (entity : RegistryEntry.t) : bool :=
  truthy (RegistryEntry.device_class entity)
  || match RegistryEntry.original_device_class entity with
     | Some c => py_in c PRESENCE_BINARY_SENSOR_DEVICE_CLASSES
     | None => false
     end.

Definition select_presence_indicating (entities : list RegistryEntry.t)
    : list RegistryEntry.t :=
  List.filter is_presence_indicating entities.

(** [state.state not in PRESENCE_BINARY_SENSOR_STATES] *)
Definition state_is_off (s : State.t) : bool :=
  negb (py_in (str_value mem (State.state s)) PRESENCE_BINARY_SENSOR_STATES).

(** The closure [all_states_are_off]: [filter(None, ...)] drops the
    entities that have no state. *)
Definition all_states_are_off (hass : HomeAssistant.t)
    (presence_indicating_entities : list RegistryEntry.t) : bool :=
  let all_states :=
    map (λ entity,
           HomeAssistant.states_get hass (RegistryEntry.entity_id entity))
        presence_indicating_entities in
  forallb state_is_off (omap id all_states).

(** The closure [handle_presence_state_change]: the outcome of the call
    and the state it leaves. *)
Definition handle_presence_state_change (hass : HomeAssistant.t)
    (entity_id : string) (from_state to_state : option State.t)
    (env : Tracking.t) : result unit * Tracking.t :=
  let previous_state := previous_state_of from_state in
  match to_state with
  | None => (Raise AttributeError, env)
  | Some to_state =>
      let current_state := State.state to_state in
      if py_is previous_state current_state then (Ok (), env)
      else if py_in (str_value mem current_state) PRESENCE_BINARY_SENSOR_STATES
      then
        if negb (AutoArea.presence (Tracking.self env))
        then (Ok (), Tracking.set_presence true env)
        else (Ok (), env)
      else
        if all_states_are_off hass
             (Tracking.presence_indicating_entities env)
        then
          if AutoArea.presence (Tracking.self env)
          then (Ok (), Tracking.set_presence false env)
          else (Ok (), env)
        else (Ok (), env)
  end.

(** [AutoArea.track_presence_sensor_state]: the area it leaves and the
    subscription it registers, if any. *)
Definition track_presence_sensor_state (hass : HomeAssistant.t)
    (self : AutoArea.t) : AutoArea.t * option Subscription.t :=
  let presence_indicating_entities :=
    select_presence_indicating (AutoArea.entities self) in
  match presence_indicating_entities with
  | [] => (self, None)
  | _ :: _ =>
      let self :=
        AutoArea.set_presence
          (if all_states_are_off hass presence_indicating_entities
           then false else true) self in
      (self,
       Some {| Subscription.entity_ids :=
                 map RegistryEntry.entity_id presence_indicating_entities;
               Subscription.captured := presence_indicating_entities |})
  end.

(** [AutoArea.initialize]: resolve the entities of the area, then track
    its presence sensors. *)
Definition initialize (hass : HomeAssistant.t)
    (entity_registry : EntityRegistry.t)
    (device_registry : DeviceRegistry.t) (self : AutoArea.t)
    : result unit * AutoArea.t * option Subscription.t :=
  match get_all_entities entity_registry device_registry
          (AutoArea.area_id self) (Some DOMAINS) with
  | Raise e => (Raise e, self, None)
  | Ok entities =>
      let '(self, subscription) :=
        track_presence_sensor_state hass
          (AutoArea.set_entities entities self) in
      (Ok (), self, subscription)
  end.

(** The state the handler runs on once a subscription is registered. *)
Definition tracking_of (self : AutoArea.t) (s : Subscription.t)
    : Tracking.t :=
  {| Tracking.self := self;
     Tracking.presence_indicating_entities := Subscription.captured s |}.

End Tracker.

(** ** Sample data: a kitchen with two motion sensors *)

Definition sample_domains : list string := ["binary_sensor"; "sensor"].
Definition sample_device_classes : list string :=
  ["motion"; "occupancy"; "presence"].
Definition sample_states : list string := ["on"].

(** Two distinct [str] objects hold ["on"]; every other address holds
    ["off"]. *)
Definition sample_mem : str_heap :=
  λ a, match a with 0 | 1 => "on" | _ => "off" end.

Definition state_on : State.t := {| State.state := StrAt 0 |}.
Definition state_on' : State.t := {| State.state := StrAt 1 |}.
Definition state_off : State.t := {| State.state := StrAt 2 |}.
Definition state_off' : State.t := {| State.state := StrAt 3 |}.

Definition sensor (entity_id : string) (device_class : option string)
    (original_device_class : option string) (area_id device_id : option string)
    : RegistryEntry.t :=
  {| RegistryEntry.entity_id := entity_id;
     RegistryEntry.domain := "binary_sensor";
     RegistryEntry.device_class := device_class;
     RegistryEntry.original_device_class := original_device_class;
     RegistryEntry.area_id := area_id;
     RegistryEntry.device_id := device_id;
     RegistryEntry.disabled := false |}.

Definition m1 : RegistryEntry.t :=
  sensor "binary_sensor.m1" None (Some "motion") (Some "kitchen") None.
Definition m2 : RegistryEntry.t :=
  sensor "binary_sensor.m2" None (Some "motion") (Some "kitchen") None.
(** A door contact: its device class is set and is no presence class. *)
Definition door : RegistryEntry.t :=
  sensor "binary_sensor.door" (Some "door") None (Some "kitchen") None.
(** No device class at all. *)
Definition plain : RegistryEntry.t :=
  sensor "binary_sensor.plain" None None (Some "kitchen") None.
(** No area of its own, and a device id that no device has. *)
Definition orphan : RegistryEntry.t :=
  sensor "binary_sensor.orphan" None (Some "motion") None (Some "ghost").
(** No area of its own, on the device [d1]. *)
Definition inherited : RegistryEntry.t :=
  sensor "binary_sensor.inherited" None (Some "motion") None (Some "d1").

Definition kitchen : AreaEntry.t :=
  {| AreaEntry.name := "Kitchen"; AreaEntry.id := "kitchen" |}.

Definition sample_devices : DeviceRegistry.t :=
  {| DeviceRegistry.devices :=
       {[ "d1" := Some {| DeviceEntry.area_id := Some "kitchen" |} ]} |}.

Definition registry_of (es : list RegistryEntry.t) : EntityRegistry.t :=
  {| EntityRegistry.entities :=
       map (λ e, (RegistryEntry.entity_id e, e)) es |}.

(** The state machine of the host with the given states of [m1] and [m2]. *)
Definition hass_with (s1 s2 : option State.t) : HomeAssistant.t :=
  {| HomeAssistant.states_get := λ entity_id,
       if String.eqb entity_id "binary_sensor.m1" then s1
       else if String.eqb entity_id "binary_sensor.m2" then s2
       else None |}.

Definition kitchen_area (presence : bool) (es : list RegistryEntry.t)
    : AutoArea.t :=
  AutoArea.set_presence presence
    (AutoArea.set_entities es (AutoArea_init kitchen)).

Definition kitchen_tracking (presence : bool) : Tracking.t :=
  {| Tracking.self := kitchen_area presence [m1; m2];
     Tracking.presence_indicating_entities := [m1; m2] |}.

(** The presence flag after each of a sequence of events, each delivered
    with the state machine as it is at that moment. *)
Fixpoint presence_trace (active : list string) (mem : str_heap)
    (events : list (HomeAssistant.t * string * option State.t * option State.t))
    (env : Tracking.t) : list bool :=
  match events with
  | [] => []
  | (hass, entity_id, from_state, to_state) :: rest =>
      let env :=
        (handle_presence_state_change active mem hass entity_id
           from_state to_state env).2 in
      AutoArea.presence (Tracking.self env)
      :: presence_trace active mem rest env
  end.

(** ** The membership tests as one predicate

    The loop of [get_all_entities] keeps an entity after three tests in a
    row. The two definitions below write the three tests as one boolean,
    to compare the loop with a filter of the registry. *)

(** [get_area_id(entity, device_registry) == area_id], false when the call
    raises. *)
Definition resolves_to (device_registry : DeviceRegistry.t) (area_id : string)
    (entity : RegistryEntry.t) : bool :=
  match get_area_id entity device_registry with
  | Ok a => bool_decide (a = Some area_id)
  | Raise _ => false
  end.

Definition is_member (device_registry : DeviceRegistry.t) (area_id : string)
    (domains : list string) (entity : RegistryEntry.t) : bool :=
  is_valid entity
  && resolves_to device_registry area_id entity
  && py_in (RegistryEntry.domain entity) domains.

(** An enabled entity without an area whose device id is no key of the
    device registry: the entity on which [get_area_id] raises. *)
Definition dangling (device_registry : DeviceRegistry.t)
    (entity : RegistryEntry.t) (d : string) : Prop :=
  RegistryEntry.disabled entity = false
  ∧ RegistryEntry.area_id entity = None
  ∧ RegistryEntry.device_id entity = Some d
  ∧ DeviceRegistry.devices device_registry !! d = None.

Definition garage : AreaEntry.t :=
  {| AreaEntry.name := "Garage"; AreaEntry.id := "garage" |}.

(** * Properties *)

(** Closed facts about membership in a list of string literals. *)
Ltac closed_fact := apply (bool_decide_unpack _); vm_compute; exact I.

(** ** Membership resolution *)

Lemma py_in_true (x : string) (xs : list string) :
  py_in x xs = true ↔ x ∈ xs.
Proof. unfold py_in. apply bool_decide_eq_true. Qed.

Lemma py_in_false (x : string) (xs : list string) :
  py_in x xs = false ↔ x ∉ xs.
Proof. unfold py_in. apply bool_decide_eq_false. Qed.

Lemma is_valid_true (entity : RegistryEntry.t) :
  is_valid entity = true ↔ RegistryEntry.disabled entity = false.
Proof. unfold is_valid. destruct (RegistryEntry.disabled entity); naive_solver. Qed.

(** An entity with an area of its own resolves to it, whatever its device. *)
Lemma get_area_id_direct (entity : RegistryEntry.t)
    (device_registry : DeviceRegistry.t) (a : string) :
  RegistryEntry.area_id entity = Some a →
  get_area_id entity device_registry = Ok (Some a).
Proof. intros H. unfold get_area_id. by rewrite H. Qed.

(** An entity without an area inherits the area of its device, when the
    device is in the registry. *)
Lemma get_area_id_inherited (entity : RegistryEntry.t)
    (device_registry : DeviceRegistry.t) (d : string) (device : DeviceEntry.t) :
  RegistryEntry.area_id entity = None →
  RegistryEntry.device_id entity = Some d →
  DeviceRegistry.devices device_registry !! d = Some (Some device) →
  get_area_id entity device_registry = Ok (DeviceEntry.area_id device).
Proof. intros Ha Hd Hl. unfold get_area_id. by rewrite Ha, Hd, Hl. Qed.

Lemma get_area_id_no_device (entity : RegistryEntry.t)
    (device_registry : DeviceRegistry.t) :
  RegistryEntry.area_id entity = None →
  RegistryEntry.device_id entity = None →
  get_area_id entity device_registry = Ok None.
Proof. intros Ha Hd. unfold get_area_id. by rewrite Ha, Hd. Qed.

(** [get_area_id] raises exactly on a dangling device id. *)
Lemma get_area_id_raises (entity : RegistryEntry.t)
    (device_registry : DeviceRegistry.t) (e : exn) :
  get_area_id entity device_registry = Raise e ↔
  ∃ d, RegistryEntry.area_id entity = None
       ∧ RegistryEntry.device_id entity = Some d
       ∧ DeviceRegistry.devices device_registry !! d = None
       ∧ e = KeyError d.
Proof.
  unfold get_area_id. split.
  - destruct (RegistryEntry.area_id entity); [done |].
    destruct (RegistryEntry.device_id entity) as [d |]; [| done].
    destruct (DeviceRegistry.devices device_registry !! d) as [[dev |] |] eqn:Hl;
      [done | done |].
    intros [= <-]. by exists d.
  - intros (d & -> & -> & -> & ->). done.
Qed.

(** One turn of the loop of [get_all_entities], for each way it can go. *)
Lemma get_all_entities_loop_cons (entity_id : string) (entity : RegistryEntry.t)
    (rest : list (string * RegistryEntry.t))
    (device_registry : DeviceRegistry.t) (area_id : string)
    (ds : list string) (acc : list RegistryEntry.t) :
  get_all_entities_loop ((entity_id, entity) :: rest) device_registry area_id
    (Some ds) acc =
  if RegistryEntry.disabled entity
  then get_all_entities_loop rest device_registry area_id (Some ds) acc
  else
    match get_area_id entity device_registry with
    | Raise e => Raise e
    | Ok a =>
        if bool_decide (a = Some area_id ∧ RegistryEntry.domain entity ∈ ds)
        then get_all_entities_loop rest device_registry area_id (Some ds)
               (acc ++ [entity])
        else get_all_entities_loop rest device_registry area_id (Some ds) acc
    end.
Proof.
  simpl. unfold is_valid, py_in.
  destruct (RegistryEntry.disabled entity); simpl; [done |].
  destruct (get_area_id entity device_registry) as [a | e]; simpl; [| done].
  destruct (decide (a = Some area_id)) as [-> | Hne].
  - rewrite bool_decide_eq_true_2 by done. simpl.
    destruct (decide (RegistryEntry.domain entity ∈ ds)).
    + by rewrite !bool_decide_eq_true_2 by done.
    + rewrite (bool_decide_eq_false_2 (_ ∈ _)) by done.
      rewrite bool_decide_eq_false_2 by (intros [_ ?]; done). done.
  - rewrite bool_decide_eq_false_2 by done. simpl.
    by rewrite bool_decide_eq_false_2 by (intros [? _]; done).
Qed.

(** When the loop returns, it returns the entities that pass the three
    tests, after those it started with. *)
Lemma get_all_entities_loop_returns (items : list (string * RegistryEntry.t))
    (device_registry : DeviceRegistry.t) (area_id : string)
    (ds : list string) (acc l : list RegistryEntry.t) :
  get_all_entities_loop items device_registry area_id (Some ds) acc = Ok l →
  ∀ E, E ∈ l ↔
       E ∈ acc
       ∨ ∃ entity_id, (entity_id, E) ∈ items
           ∧ RegistryEntry.disabled E = false
           ∧ RegistryEntry.domain E ∈ ds
           ∧ get_area_id E device_registry = Ok (Some area_id).
Proof.
  revert acc. induction items as [| [entity_id entity] rest IH]; intros acc.
  - simpl. intros [= ->] E. split; [by left |].
    intros [H | (i & H & _)]; [done | by apply elem_of_nil in H].
  - rewrite get_all_entities_loop_cons.
    destruct (RegistryEntry.disabled entity) eqn:Hdis.
    { intros H E. rewrite (IH _ H E). split.
      - intros [? | (i & Hin & ?)]; [by left | right].
        exists i. split; [by apply list_elem_of_further | done].
      - intros [? | (i & Hin & Hd & ?)]; [by left |].
        apply elem_of_cons in Hin as [[= -> ->] | Hin]; [congruence |].
        right. by exists i. }
    destruct (get_area_id entity device_registry) as [a | e] eqn:Harea; [| done].
    case_bool_decide as Hkeep.
    + intros H E. rewrite (IH _ H E). rewrite elem_of_app, list_elem_of_singleton.
      destruct Hkeep as [-> Hdom]. split.
      * intros [[? | ->] | (i & Hin & ?)].
        -- by left.
        -- right. exists entity_id. split; [by apply list_elem_of_here | done].
        -- right. exists i. split; [by apply list_elem_of_further | done].
      * intros [? | (i & Hin & ?)]; [by left; left |].
        apply elem_of_cons in Hin as [[= -> ->] | Hin]; [by left; right |].
        right. by exists i.
    + intros H E. rewrite (IH _ H E). split.
      * intros [? | (i & Hin & ?)]; [by left | right].
        exists i. split; [by apply list_elem_of_further | done].
      * intros [? | (i & Hin & Hd & Hdom & Ha)]; [by left |].
        apply elem_of_cons in Hin as [[= -> ->] | Hin].
        -- exfalso. apply Hkeep. split; [congruence | done].
        -- right. by exists i.
Qed.

(** The loop raises as soon as an enabled entity without an area names a
    device that the registry lacks. *)
Lemma get_all_entities_loop_raises (items : list (string * RegistryEntry.t))
    (device_registry : DeviceRegistry.t) (area_id : string)
    (ds : list string) (acc : list RegistryEntry.t) :
  (∃ entity_id E d, (entity_id, E) ∈ items
      ∧ RegistryEntry.disabled E = false
      ∧ RegistryEntry.area_id E = None
      ∧ RegistryEntry.device_id E = Some d
      ∧ DeviceRegistry.devices device_registry !! d = None) ↔
  ∃ e, get_all_entities_loop items device_registry area_id (Some ds) acc
       = Raise e.
Proof.
  revert acc. induction items as [| [entity_id entity] rest IH]; intros acc.
  - split; [intros (i & E & d & H & _); by apply elem_of_nil in H |].
    by intros [e ?].
  - rewrite get_all_entities_loop_cons. split.
    + intros (i & E & d & Hin & Hdis & Ha & Hd & Hl).
      apply elem_of_cons in Hin as [[= -> ->] | Hin].
      * rewrite Hdis.
        assert (get_area_id entity device_registry = Raise (KeyError d)) as ->
          by (apply get_area_id_raises; eauto).
        eauto.
      * destruct (RegistryEntry.disabled entity).
        { apply IH. eauto 10. }
        destruct (get_area_id entity device_registry); [| eauto].
        case_bool_decide; apply IH; eauto 10.
    + intros [e He].
      destruct (RegistryEntry.disabled entity) eqn:Hdis.
      { destruct (proj2 (IH acc)) as (i & E & d & Hin & ?); [eauto |].
        exists i, E, d. split; [by apply list_elem_of_further | done]. }
      destruct (get_area_id entity device_registry) as [a | e'] eqn:Harea.
      * assert (∃ acc', get_all_entities_loop rest device_registry area_id
                          (Some ds) acc' = Raise e) as [acc' He']
          by (case_bool_decide; eauto).
        destruct (proj2 (IH acc')) as (i & E & d & Hin & ?); [eauto |].
        exists i, E, d. split; [by apply list_elem_of_further | done].
      * apply get_area_id_raises in Harea as (d & ? & ? & ? & _).
        exists entity_id, entity, d. split; [by apply list_elem_of_here | done].
Qed.

(** When [get_all_entities] returns, its result holds the entities of the
    registry that are enabled, of an accepted domain, and resolved to the
    area. *)
Lemma get_all_entities_membership (entity_registry : EntityRegistry.t)
    (device_registry : DeviceRegistry.t) (area_id : string)
    (ds : list string) (l : list RegistryEntry.t) :
  get_all_entities entity_registry device_registry area_id (Some ds) = Ok l →
  ∀ E, E ∈ l ↔
       ∃ entity_id,
         (entity_id, E) ∈ EntityRegistry.entities entity_registry
         ∧ RegistryEntry.disabled E = false
         ∧ RegistryEntry.domain E ∈ ds
         ∧ get_area_id E device_registry = Ok (Some area_id).
Proof.
  intros H E. unfold get_all_entities in H.
  rewrite (get_all_entities_loop_returns _ _ _ _ _ _ H E).
  split; [intros [Hnil | ?]; [by apply elem_of_nil in Hnil | done] | by right].
Qed.

(** [get_all_entities] returns when every enabled entity without an area
    names no device or a device of the registry. *)
Lemma get_all_entities_returns (entity_registry : EntityRegistry.t)
    (device_registry : DeviceRegistry.t) (area_id : string) (ds : list string) :
  (∀ entity_id E d,
     (entity_id, E) ∈ EntityRegistry.entities entity_registry →
     RegistryEntry.disabled E = false →
     RegistryEntry.area_id E = None →
     RegistryEntry.device_id E = Some d →
     is_Some (DeviceRegistry.devices device_registry !! d)) →
  ∃ l, get_all_entities entity_registry device_registry area_id (Some ds)
       = Ok l.
Proof.
  intros Hdev. unfold get_all_entities.
  destruct (get_all_entities_loop _ device_registry area_id (Some ds) [])
    as [l | e] eqn:Hrun; [by exists l |].
  destruct (proj2 (get_all_entities_loop_raises
                     (EntityRegistry.entities entity_registry)
                     device_registry area_id ds []))
    as (i & E & d & Hin & Hdis & Ha & Hd & Hl); [by exists e |].
  destruct (Hdev i E d Hin Hdis Ha Hd) as [x Hx]. congruence.
Qed.

(** C4 (membership resolution) fails on the code where the registry holds
    an enabled entity without an area whose device id is not in the device
    registry: [m1] is enabled, of an accepted domain and assigned to the
    kitchen, yet [get_all_entities] raises [KeyError] on [orphan] and
    returns no membership at all. *)
Theorem get_all_entities_raises_on_dangling_device :
  ("binary_sensor.m1", m1) ∈ EntityRegistry.entities (registry_of [m1; orphan])
  ∧ RegistryEntry.disabled m1 = false
  ∧ RegistryEntry.domain m1 ∈ sample_domains
  ∧ get_area_id m1 sample_devices = Ok (Some "kitchen")
  ∧ get_all_entities (registry_of [m1; orphan]) sample_devices "kitchen"
      (Some sample_domains) = Raise (KeyError "ghost").
Proof.
  split; [apply list_elem_of_here |].
  split; [reflexivity |].
  split; [apply list_elem_of_here |].
  split; vm_compute; reflexivity.
Qed.

(** C7 (missing-device tolerance) fails on the code: for an entity without
    an area of its own whose device id is not a key of the device registry,
    [get_area_id] raises [KeyError] instead of returning no area. *)
Theorem get_area_id_missing_device_raises (entity : RegistryEntry.t)
    (device_registry : DeviceRegistry.t) (d : string) :
  RegistryEntry.area_id entity = None →
  RegistryEntry.device_id entity = Some d →
  DeviceRegistry.devices device_registry !! d = None →
  get_area_id entity device_registry = Raise (KeyError d).
Proof. intros Ha Hd Hl. apply get_area_id_raises. by exists d. Qed.

Lemma get_area_id_missing_device_raises_witness :
  get_area_id orphan sample_devices = Raise (KeyError "ghost").
Proof.
  apply (get_area_id_missing_device_raises orphan sample_devices "ghost");
    vm_compute; reflexivity.
Defined.

(** ** The presence tracker *)

Section TrackerProperties.

Variable DOMAINS : list string.
Variable PRESENCE_BINARY_SENSOR_DEVICE_CLASSES : list string.
Variable PRESENCE_BINARY_SENSOR_STATES : list string.
Variable mem : str_heap.

Local Abbreviation is_active r :=
  (str_value mem r ∈ PRESENCE_BINARY_SENSOR_STATES).
Local Abbreviation selected :=
  (select_presence_indicating PRESENCE_BINARY_SENSOR_DEVICE_CLASSES).
Local Abbreviation all_off :=
  (all_states_are_off PRESENCE_BINARY_SENSOR_STATES mem).
Local Abbreviation handle :=
  (handle_presence_state_change PRESENCE_BINARY_SENSOR_STATES mem).
Local Abbreviation track :=
  (track_presence_sensor_state PRESENCE_BINARY_SENSOR_DEVICE_CLASSES
     PRESENCE_BINARY_SENSOR_STATES mem).
Local Abbreviation presence_of env := (AutoArea.presence (Tracking.self env)).

Lemma state_is_off_true (s : State.t) :
  state_is_off PRESENCE_BINARY_SENSOR_STATES mem s = true
  ↔ ¬ is_active (State.state s).
Proof. unfold state_is_off. rewrite negb_true_iff. apply py_in_false. Qed.

(** An entity without a state does not count in the re-check. *)
Lemma all_states_are_off_skip (hass : HomeAssistant.t)
    (entity : RegistryEntry.t) (es : list RegistryEntry.t) :
  HomeAssistant.states_get hass (RegistryEntry.entity_id entity) = None →
  all_off hass (entity :: es) = all_off hass es.
Proof. intros H. unfold all_states_are_off. simpl. by rewrite H. Qed.

Lemma all_states_are_off_cons (hass : HomeAssistant.t)
    (entity : RegistryEntry.t) (es : list RegistryEntry.t) (s : State.t) :
  HomeAssistant.states_get hass (RegistryEntry.entity_id entity) = Some s →
  all_off hass (entity :: es)
  = state_is_off PRESENCE_BINARY_SENSOR_STATES mem s && all_off hass es.
Proof. intros H. unfold all_states_are_off. simpl. by rewrite H. Qed.

(** The re-check succeeds exactly when every entity that has a state has
    one outside the active states. *)
Lemma all_states_are_off_true (hass : HomeAssistant.t)
    (es : list RegistryEntry.t) :
  all_off hass es = true ↔
  ∀ e s, e ∈ es →
         HomeAssistant.states_get hass (RegistryEntry.entity_id e) = Some s →
         ¬ is_active (State.state s).
Proof.
  induction es as [| entity es IH].
  - split; [| done]. intros _ e s He. by apply elem_of_nil in He.
  - destruct (HomeAssistant.states_get hass (RegistryEntry.entity_id entity))
      as [s0 |] eqn:Hget.
    + rewrite (all_states_are_off_cons _ _ _ _ Hget), andb_true_iff,
        state_is_off_true, IH.
      split.
      * intros [H0 Hes] e s He Hs.
        apply elem_of_cons in He as [-> | He]; [| by eapply Hes].
        rewrite Hget in Hs. by injection Hs as <-.
      * intros H. split; [eapply H; [apply list_elem_of_here | done] |].
        intros e s He. apply H. by apply list_elem_of_further.
    + rewrite (all_states_are_off_skip _ _ _ Hget), IH. split.
      * intros Hes e s He Hs.
        apply elem_of_cons in He as [-> | He]; [congruence | by eapply Hes].
      * intros H e s He. apply H. by apply list_elem_of_further.
Qed.

Lemma all_states_are_off_false (hass : HomeAssistant.t)
    (es : list RegistryEntry.t) (e : RegistryEntry.t) (s : State.t) :
  e ∈ es →
  HomeAssistant.states_get hass (RegistryEntry.entity_id e) = Some s →
  is_active (State.state s) →
  all_off hass es = false.
Proof.
  intros He Hs Hact. apply not_true_is_false. intros Hoff.
  by apply (proj1 (all_states_are_off_true hass es) Hoff e s He Hs).
Qed.

(** *** Selection of the presence sensors *)

Lemma select_presence_indicating_elem (entities : list RegistryEntry.t)
    (e : RegistryEntry.t) :
  e ∈ selected entities ↔
  e ∈ entities
  ∧ is_presence_indicating PRESENCE_BINARY_SENSOR_DEVICE_CLASSES e = true.
Proof.
  unfold select_presence_indicating.
  rewrite !list_elem_of_In. apply filter_In.
Qed.

(** With no device class, or an empty one, the original device class
    decides, by membership in the list of presence classes. *)
Lemma is_presence_indicating_fallback (e : RegistryEntry.t) :
  truthy (RegistryEntry.device_class e) = false →
  is_presence_indicating PRESENCE_BINARY_SENSOR_DEVICE_CLASSES e = true ↔
  ∃ c, RegistryEntry.original_device_class e = Some c
       ∧ c ∈ PRESENCE_BINARY_SENSOR_DEVICE_CLASSES.
Proof.
  intros Hdc. unfold is_presence_indicating. rewrite Hdc. simpl.
  destruct (RegistryEntry.original_device_class e) as [c |].
  - rewrite py_in_true. split; [intros H; by exists c |].
    by intros (c' & [= <-] & H).
  - split; [done | by intros (c' & ? & _)].
Qed.

(** C5 (presence-sensor classification) fails on the code: an entity whose
    device class is set, not empty and outside the list of presence classes
    is selected all the same, because the device class is only tested for
    truth. *)
Theorem select_presence_indicating_any_device_class
    (entities : list RegistryEntry.t) (e : RegistryEntry.t) (c : string) :
  e ∈ entities →
  RegistryEntry.device_class e = Some c →
  c ≠ "" →
  c ∉ PRESENCE_BINARY_SENSOR_DEVICE_CLASSES →
  e ∈ selected entities.
Proof.
  intros He Hc Hne _. apply select_presence_indicating_elem. split; [done |].
  unfold is_presence_indicating. rewrite Hc. simpl.
  destruct (String.eqb_spec c ""); [done | reflexivity].
Qed.

(** *** The state-change handler *)

(** The handler returns at once when both tokens are one object. *)
Lemma handle_same_object (hass : HomeAssistant.t) (entity_id : string)
    (from_state : option State.t) (to_state : State.t) (env : Tracking.t) :
  previous_state_of from_state = State.state to_state →
  handle hass entity_id from_state (Some to_state) env = (Ok (), env).
Proof.
  intros H. unfold handle_presence_state_change, py_is.
  by rewrite bool_decide_eq_true_2.
Qed.

(** Two distinct objects pass the filter, also when they hold the same
    characters. *)
Lemma handle_distinct_objects (hass : HomeAssistant.t) (entity_id : string)
    (from_state : option State.t) (to_state : State.t) (env : Tracking.t) :
  previous_state_of from_state ≠ State.state to_state →
  handle hass entity_id from_state (Some to_state) env =
  if py_in (str_value mem (State.state to_state)) PRESENCE_BINARY_SENSOR_STATES
  then
    if negb (presence_of env)
    then (Ok (), Tracking.set_presence true env) else (Ok (), env)
  else
    if all_off hass (Tracking.presence_indicating_entities env)
    then
      if presence_of env
      then (Ok (), Tracking.set_presence false env) else (Ok (), env)
    else (Ok (), env).
Proof.
  intros H. unfold handle_presence_state_change, py_is.
  by rewrite bool_decide_eq_false_2.
Qed.

(** The handler leaves the state as it was or sets the flag. *)
Lemma handle_state_cases (hass : HomeAssistant.t) (entity_id : string)
    (from_state to_state : option State.t) (env : Tracking.t) :
  let env' := (handle hass entity_id from_state to_state env).2 in
  env' = env
  ∨ env' = Tracking.set_presence true env
  ∨ env' = Tracking.set_presence false env.
Proof.
  unfold handle_presence_state_change.
  destruct to_state as [to_state |]; simpl; [| by left].
  repeat match goal with
         | |- context [if ?b then _ else _] => destruct b; simpl
         end; auto.
Qed.

(** C2 (rising edge): on an event whose two tokens differ, with presence
    false and the new token among the active states, the handler sets
    presence to true, whatever the state machine holds for the sensors. *)
Theorem rising_edge (hass : HomeAssistant.t) (entity_id : string)
    (from_state : option State.t) (to_state : State.t) (env : Tracking.t) :
  str_value mem (previous_state_of from_state)
    ≠ str_value mem (State.state to_state) →
  presence_of env = false →
  is_active (State.state to_state) →
  handle hass entity_id from_state (Some to_state) env
    = (Ok (), Tracking.set_presence true env)
  ∧ presence_of (handle hass entity_id from_state (Some to_state) env).2
    = true.
Proof.
  intros Hdiff Hclear Hactive.
  assert (previous_state_of from_state ≠ State.state to_state) as Hobj
    by (intros Heq; apply Hdiff; by rewrite Heq).
  rewrite (handle_distinct_objects _ _ _ _ _ Hobj).
  rewrite (proj2 (py_in_true _ _) Hactive), Hclear. simpl. done.
Qed.

(** C1 (sticky clear): with presence true, an event whose new token is
    outside the active states leaves presence true as long as another
    tracked sensor has a live state among the active ones; and whatever
    the event, presence goes to false only when the new token is outside
    the active states and the re-check finds no tracked sensor with a live
    state among them. *)
Theorem sticky_clear (hass : HomeAssistant.t) (entity_id : string)
    (from_state : option State.t) (to_state : State.t) (env : Tracking.t) :
  presence_of env = true →
  (¬ is_active (State.state to_state) →
   (∃ other s,
      other ∈ Tracking.presence_indicating_entities env
      ∧ RegistryEntry.entity_id other ≠ entity_id
      ∧ HomeAssistant.states_get hass (RegistryEntry.entity_id other) = Some s
      ∧ is_active (State.state s)) →
   presence_of (handle hass entity_id from_state (Some to_state) env).2
     = true)
  ∧ (∀ to_state' : option State.t,
       presence_of (handle hass entity_id from_state to_state' env).2 = false →
       (∃ t, to_state' = Some t ∧ ¬ is_active (State.state t))
       ∧ all_off hass (Tracking.presence_indicating_entities env) = true
       ∧ ∀ e s,
           e ∈ Tracking.presence_indicating_entities env →
           HomeAssistant.states_get hass (RegistryEntry.entity_id e) = Some s →
           ¬ is_active (State.state s)).
Proof.
  intros Hocc. split.
  - intros Hoff (other & s & Hin & _ & Hget & Hact).
    unfold handle_presence_state_change.
    destruct (py_is _ _); [done |].
    rewrite (proj2 (py_in_false _ _) Hoff).
    by rewrite (all_states_are_off_false _ _ _ _ Hin Hget Hact).
  - intros to_state'. unfold handle_presence_state_change.
    destruct to_state' as [t |]; simpl; [| congruence].
    destruct (py_is _ _); simpl; [congruence |].
    destruct (py_in _ _) eqn:Hin; simpl.
    { rewrite Hocc. simpl. congruence. }
    destruct (all_off hass _) eqn:Hall; simpl; [| congruence].
    intros _. split; [exists t; split; [done | by apply py_in_false] |].
    split; [done | by apply all_states_are_off_true].
Qed.

(** C3 (initial presence): for an area as [__init__] and [initialize] leave
    it, the presence that [track_presence_sensor_state] computes is false
    exactly when every selected sensor that has a state has one outside the
    active states; so it is false when no sensor is selected and when no
    selected sensor has a state, and a sensor without a state is skipped by
    the computation. *)
Theorem initial_presence (hass : HomeAssistant.t) (area : AreaEntry.t)
    (entities : list RegistryEntry.t) :
  let self := AutoArea.set_entities entities (AutoArea_init area) in
  (AutoArea.presence (track hass self).1 = false ↔
   ∀ e s, e ∈ selected entities →
          HomeAssistant.states_get hass (RegistryEntry.entity_id e) = Some s →
          ¬ is_active (State.state s))
  ∧ (selected entities = [] → AutoArea.presence (track hass self).1 = false)
  ∧ ((∀ e, e ∈ selected entities →
           HomeAssistant.states_get hass (RegistryEntry.entity_id e) = None) →
     AutoArea.presence (track hass self).1 = false)
  ∧ (∀ e es,
       HomeAssistant.states_get hass (RegistryEntry.entity_id e) = None →
       all_off hass (e :: es) = all_off hass es).
Proof.
  intros self.
  assert (AutoArea.presence (track hass self).1 = false ↔
          all_off hass (selected entities) = true) as Hpres.
  { unfold track_presence_sensor_state. simpl.
    destruct (selected entities) as [| e es] eqn:Hsel; simpl; [done |].
    destruct (all_off hass (e :: es)); simpl; split; congruence. }
  split; [by rewrite Hpres, all_states_are_off_true |].
  split; [intros Hnil; apply Hpres; by rewrite Hnil |].
  split; [| intros e es; apply all_states_are_off_skip].
  intros Hnone. apply Hpres, all_states_are_off_true.
  intros e s He Hs. rewrite (Hnone e He) in Hs. done.
Qed.

(** *** No presence sensor *)

Lemma track_no_sensors (hass : HomeAssistant.t) (self : AutoArea.t) :
  selected (AutoArea.entities self) = [] →
  track hass self = (self, None).
Proof. intros H. unfold track_presence_sensor_state. by rewrite H. Qed.

(** With a sensor selected, a subscription to the selected entity ids is
    registered. *)
Lemma track_some_sensors (hass : HomeAssistant.t) (self : AutoArea.t) :
  selected (AutoArea.entities self) ≠ [] →
  ∃ s, (track hass self).2 = Some s
       ∧ Subscription.entity_ids s
         = map RegistryEntry.entity_id (selected (AutoArea.entities self))
       ∧ Subscription.captured s = selected (AutoArea.entities self).
Proof.
  intros H. unfold track_presence_sensor_state.
  destruct (selected (AutoArea.entities self)) as [| e es]; [done |].
  simpl. eauto.
Qed.

(** C8 (empty sensor set): when the entities resolved for an area hold no
    presence sensor, [initialize] returns normally, leaves presence at the
    [False] that [__init__] gave it and registers no subscription. *)
Theorem empty_sensor_set (hass : HomeAssistant.t)
    (entity_registry : EntityRegistry.t) (device_registry : DeviceRegistry.t)
    (area : AreaEntry.t) (entities : list RegistryEntry.t) :
  get_all_entities entity_registry device_registry (AreaEntry.id area)
    (Some DOMAINS) = Ok entities →
  selected entities = [] →
  let self := AutoArea.set_entities entities (AutoArea_init area) in
  track hass self = (self, None)
  ∧ initialize DOMAINS PRESENCE_BINARY_SENSOR_DEVICE_CLASSES
      PRESENCE_BINARY_SENSOR_STATES mem hass entity_registry device_registry
      (AutoArea_init area)
    = (Ok (), self, None)
  ∧ AutoArea.presence self = false.
Proof.
  intros Hres Hsel self.
  assert (track hass self = (self, None)) as Htrack
    by (by apply track_no_sensors).
  split; [done |]. split; [| reflexivity].
  unfold initialize. simpl. rewrite Hres. fold self. by rewrite Htrack.
Qed.

(** *** Absent states and the frame of the handler *)

(** C9 (asymmetric null tolerance): with a new state at hand the handler
    returns for every previous state, and an absent previous state counts
    as the token [""]; with the new state absent the handler raises
    [AttributeError], whatever the previous state. *)
Theorem handler_null_tolerance (hass : HomeAssistant.t) (entity_id : string)
    (env : Tracking.t) :
  (∀ (from_state : option State.t) (to_state : State.t),
     (handle hass entity_id from_state (Some to_state) env).1 = Ok ())
  ∧ str_value mem (previous_state_of None) = ""
  ∧ (∀ to_state : State.t,
       handle hass entity_id None (Some to_state) env
       = handle hass entity_id (Some {| State.state := EmptyLiteral |})
           (Some to_state) env)
  ∧ (∀ from_state : option State.t,
       handle hass entity_id from_state None env
       = (Raise AttributeError, env)).
Proof.
  split; [| by repeat split].
  intros from_state to_state. unfold handle_presence_state_change.
  repeat match goal with
         | |- context [if ?b then _ else _] => destruct b; simpl
         end; reflexivity.
Qed.

(** C10 (frame): whatever the event and whether it returns or raises, the
    handler leaves the name and the id of the area, its entities and the
    captured list of presence sensors as they were; only the presence flag
    can differ. *)
Theorem handler_frame (hass : HomeAssistant.t) (entity_id : string)
    (from_state to_state : option State.t) (env : Tracking.t) :
  let env' := (handle hass entity_id from_state to_state env).2 in
  AutoArea.area_id (Tracking.self env') = AutoArea.area_id (Tracking.self env)
  ∧ AutoArea.area_name (Tracking.self env')
    = AutoArea.area_name (Tracking.self env)
  ∧ AutoArea.entities (Tracking.self env')
    = AutoArea.entities (Tracking.self env)
  ∧ Tracking.presence_indicating_entities env'
    = Tracking.presence_indicating_entities env
  ∧ env' = Tracking.set_presence (presence_of env') env.
Proof.
  intros env'.
  destruct (handle_state_cases hass entity_id from_state to_state env)
    as [H | [H | H]]; fold env' in H; rewrite H; simpl;
    repeat split; try reflexivity.
  destruct env as [[]]; reflexivity.
Qed.

End TrackerProperties.

(** ** The properties on the sample data *)

(** C6 (idempotent no-op) fails on the code: the filter is [is], the
    identity of objects. Two state tokens that are distinct objects with
    the same characters pass it, and the event then flips presence: from
    false to true for the token ["on"], and from true to false for the
    token ["off"] once the other tracked sensor has lost its state. *)
Theorem duplicate_filter_compares_objects :
  str_value sample_mem (State.state state_on)
    = str_value sample_mem (State.state state_on')
  ∧ handle_presence_state_change sample_states sample_mem
      (hass_with (Some state_on') (Some state_off)) "binary_sensor.m1"
      (Some state_on) (Some state_on') (kitchen_tracking false)
    = (Ok (), kitchen_tracking true)
  ∧ str_value sample_mem (State.state state_off)
    = str_value sample_mem (State.state state_off')
  ∧ handle_presence_state_change sample_states sample_mem
      (hass_with None (Some state_off')) "binary_sensor.m2"
      (Some state_off) (Some state_off') (kitchen_tracking true)
    = (Ok (), kitchen_tracking false).
Proof. repeat split. Qed.

Lemma rising_edge_witness :
  str_value sample_mem (previous_state_of (Some state_off))
    ≠ str_value sample_mem (State.state state_on)
  ∧ AutoArea.presence (Tracking.self (kitchen_tracking false)) = false
  ∧ str_value sample_mem (State.state state_on) ∈ sample_states
  ∧ AutoArea.presence
      (Tracking.self
         (handle_presence_state_change sample_states sample_mem
            (hass_with (Some state_on) (Some state_off)) "binary_sensor.m1"
            (Some state_off) (Some state_on) (kitchen_tracking false)).2)
    = true.
Proof.
  assert (str_value sample_mem (previous_state_of (Some state_off))
            ≠ str_value sample_mem (State.state state_on)) as Hdiff
    by discriminate.
  assert (str_value sample_mem (State.state state_on) ∈ sample_states)
    as Hactive by closed_fact.
  split; [exact Hdiff |]. split; [reflexivity |]. split; [exact Hactive |].
  exact (proj2 (rising_edge sample_states sample_mem
                  (hass_with (Some state_on) (Some state_off))
                  "binary_sensor.m1" (Some state_off) state_on
                  (kitchen_tracking false) Hdiff eq_refl Hactive)).
Defined.

Lemma sticky_clear_witness :
  AutoArea.presence (Tracking.self (kitchen_tracking true)) = true
  ∧ AutoArea.presence
      (Tracking.self
         (handle_presence_state_change sample_states sample_mem
            (hass_with (Some state_off) (Some state_on)) "binary_sensor.m1"
            (Some state_on) (Some state_off) (kitchen_tracking true)).2)
    = true.
Proof.
  split; [reflexivity |].
  apply (sticky_clear sample_states sample_mem
           (hass_with (Some state_off) (Some state_on)) "binary_sensor.m1"
           (Some state_on) state_off (kitchen_tracking true) eq_refl).
  - closed_fact.
  - exists m2, state_on.
    split; [apply list_elem_of_further, list_elem_of_here |].
    split; [discriminate |]. split; [reflexivity | closed_fact].
Defined.

Lemma select_presence_indicating_any_device_class_witness :
  ("door" ∉ sample_device_classes)
  ∧ door ∈ select_presence_indicating sample_device_classes [m1; door; plain].
Proof.
  assert ("door" ∉ sample_device_classes) as Hout by closed_fact.
  split; [exact Hout |].
  apply (select_presence_indicating_any_device_class sample_device_classes
           [m1; door; plain] door "door");
    [apply list_elem_of_further, list_elem_of_here | reflexivity
    | discriminate | exact Hout].
Defined.

Lemma empty_sensor_set_witness :
  initialize sample_domains sample_device_classes sample_states sample_mem
    (hass_with None None) (registry_of [plain]) sample_devices
    (AutoArea_init kitchen)
  = (Ok (), kitchen_area false [plain], None).
Proof.
  apply (empty_sensor_set sample_domains sample_device_classes sample_states
           sample_mem (hass_with None None) (registry_of [plain])
           sample_devices kitchen [plain]);
    vm_compute; reflexivity.
Defined.

(** The scenario of the two motion sensors: both off at the start, then
    [m1] on, [m2] on, [m1] off, [m2] off. *)
Example kitchen_scenario :
  track_presence_sensor_state sample_device_classes sample_states sample_mem
    (hass_with (Some state_off) (Some state_off)) (kitchen_area false [m1; m2])
  = (kitchen_area false [m1; m2],
     Some {| Subscription.entity_ids := ["binary_sensor.m1"; "binary_sensor.m2"];
             Subscription.captured := [m1; m2] |})
  ∧ presence_trace sample_states sample_mem
      [ (hass_with (Some state_on) (Some state_off), "binary_sensor.m1",
         Some state_off, Some state_on);
        (hass_with (Some state_on) (Some state_on), "binary_sensor.m2",
         Some state_off, Some state_on);
        (hass_with (Some state_off) (Some state_on), "binary_sensor.m1",
         Some state_on, Some state_off);
        (hass_with (Some state_off) (Some state_off), "binary_sensor.m2",
         Some state_on, Some state_off) ]
      (kitchen_tracking false)
    = [true; true; true; false].
Proof. split; reflexivity. Qed.

(** An entity without an area on the device [d1] resolves to the area of
    [d1], and a disabled entity is left out. *)
Example inherited_and_disabled :
  get_area_id inherited sample_devices = Ok (Some "kitchen")
  ∧ get_all_entities
      {| EntityRegistry.entities :=
           [ ("binary_sensor.m1",
              {| RegistryEntry.entity_id := "binary_sensor.m1";
                 RegistryEntry.domain := "binary_sensor";
                 RegistryEntry.device_class := None;
                 RegistryEntry.original_device_class := Some "motion";
                 RegistryEntry.area_id := Some "kitchen";
                 RegistryEntry.device_id := None;
                 RegistryEntry.disabled := true |});
             ("binary_sensor.inherited", inherited) ] |}
      sample_devices "kitchen" (Some sample_domains)
    = Ok [inherited].
Proof. split; vm_compute; reflexivity. Qed.

(** * Further properties of the membership resolution *)

Lemma resolves_to_true (device_registry : DeviceRegistry.t) (area_id : string)
    (entity : RegistryEntry.t) :
  resolves_to device_registry area_id entity = true
  ↔ get_area_id entity device_registry = Ok (Some area_id).
Proof.
  unfold resolves_to.
  destruct (get_area_id entity device_registry) as [a | e]; [| done].
  rewrite bool_decide_eq_true. split; congruence.
Qed.

(** The loop, when every area of the entities it visits resolves. *)
Lemma get_all_entities_loop_filter (items : list (string * RegistryEntry.t))
    (device_registry : DeviceRegistry.t) (area_id : string)
    (ds : list string) (acc l : list RegistryEntry.t) :
  get_all_entities_loop items device_registry area_id (Some ds) acc = Ok l →
  l = (acc ++ List.filter (is_member device_registry area_id ds)
                (map snd items))%list.
Proof.
  revert acc. induction items as [| [entity_id entity] rest IH]; intros acc.
  - simpl. intros [= ->]. by rewrite app_nil_r.
  - rewrite get_all_entities_loop_cons. simpl.
    unfold is_member at 1, is_valid, resolves_to, py_in.
    destruct (RegistryEntry.disabled entity); simpl; [apply IH |].
    destruct (get_area_id entity device_registry) as [a | e]; [| done].
    destruct (decide (a = Some area_id)) as [-> | Hne].
    + rewrite (bool_decide_eq_true_2 (Some area_id = Some area_id)) by done.
      simpl. destruct (decide (RegistryEntry.domain entity ∈ ds)).
      * rewrite !bool_decide_eq_true_2 by done.
        intros H. rewrite (IH _ H). by rewrite <- app_assoc.
      * rewrite (bool_decide_eq_false_2 (_ ∈ _)) by done.
        rewrite bool_decide_eq_false_2 by (intros [_ ?]; done). apply IH.
    + rewrite (bool_decide_eq_false_2 (a = Some area_id)) by done.
      rewrite bool_decide_eq_false_2 by (intros [? _]; done). apply IH.
Qed.

(** The only exception of the loop, given a list of domains, is the
    [KeyError] of a dangling device id. *)
Lemma get_all_entities_loop_raise_inv (items : list (string * RegistryEntry.t))
    (device_registry : DeviceRegistry.t) (area_id : string)
    (ds : list string) (acc : list RegistryEntry.t) (e : exn) :
  get_all_entities_loop items device_registry area_id (Some ds) acc = Raise e →
  ∃ entity_id E d,
    (entity_id, E) ∈ items ∧ dangling device_registry E d ∧ e = KeyError d.
Proof.
  revert acc. induction items as [| [entity_id entity] rest IH]; intros acc.
  - done.
  - rewrite get_all_entities_loop_cons. intros H.
    assert (∀ acc', get_all_entities_loop rest device_registry area_id
                      (Some ds) acc' = Raise e →
                    ∃ i E d, (i, E) ∈ (entity_id, entity) :: rest
                             ∧ dangling device_registry E d ∧ e = KeyError d)
      as Hrest.
    { intros acc' H'. destruct (IH _ H') as (i & E & d & Hin & ?).
      exists i, E, d. split; [by apply list_elem_of_further | done]. }
    destruct (RegistryEntry.disabled entity) eqn:Hdis; [by eapply Hrest |].
    destruct (get_area_id entity device_registry) as [a | e'] eqn:Harea.
    + case_bool_decide; by eapply Hrest.
    + injection H as ->.
      apply get_area_id_raises in Harea as (d & ? & ? & ? & ->).
      exists entity_id, entity, d.
      split; [apply list_elem_of_here | by repeat split].
Qed.

(** X1: when [get_all_entities] returns, its result is the registry, in
    its order and with its repetitions, filtered by the three tests. *)
Theorem get_all_entities_filter (entity_registry : EntityRegistry.t)
    (device_registry : DeviceRegistry.t) (area_id : string)
    (ds : list string) (l : list RegistryEntry.t) :
  get_all_entities entity_registry device_registry area_id (Some ds) = Ok l →
  l = List.filter (is_member device_registry area_id ds)
        (map snd (EntityRegistry.entities entity_registry)).
Proof.
  intros H. unfold get_all_entities in H.
  by rewrite (get_all_entities_loop_filter _ _ _ _ _ _ H).
Qed.

(** X2: given a list of domains, [get_all_entities] raises exactly when
    the registry holds a dangling entity, whatever the area and the domains
    asked for; and what it raises is the [KeyError] of such a device id. *)
Theorem get_all_entities_raises_iff_dangling
    (entity_registry : EntityRegistry.t) (device_registry : DeviceRegistry.t)
    (area_id : string) (ds : list string) :
  ((∃ e, get_all_entities entity_registry device_registry area_id (Some ds)
         = Raise e)
   ↔ ∃ entity_id E d,
       (entity_id, E) ∈ EntityRegistry.entities entity_registry
       ∧ dangling device_registry E d)
  ∧ ∀ e, get_all_entities entity_registry device_registry area_id (Some ds)
         = Raise e →
         ∃ entity_id E d,
           (entity_id, E) ∈ EntityRegistry.entities entity_registry
           ∧ dangling device_registry E d ∧ e = KeyError d.
Proof.
  unfold get_all_entities. split.
  - split.
    + intros [e He].
      destruct (get_all_entities_loop_raise_inv _ _ _ _ _ _ He)
        as (i & E & d & Hin & Hd & _).
      by exists i, E, d.
    + intros (i & E & d & Hin & Hdis & Ha & Hd & Hl).
      apply get_all_entities_loop_raises. by exists i, E, d.
  - intros e He. by eapply get_all_entities_loop_raise_inv.
Qed.

(** A disabled entity is passed over before its area is looked up. *)
Lemma get_all_entities_loop_enabled (items : list (string * RegistryEntry.t))
    (device_registry : DeviceRegistry.t) (area_id : string)
    (domains : option (list string)) (acc : list RegistryEntry.t) :
  get_all_entities_loop items device_registry area_id domains acc
  = get_all_entities_loop (List.filter (λ p, is_valid p.2) items)
      device_registry area_id domains acc.
Proof.
  revert acc. induction items as [| [entity_id entity] rest IH]; intros acc;
    [done |].
  cbn [List.filter snd].
  destruct (is_valid entity) eqn:Hvalid.
  - cbn [get_all_entities_loop]. rewrite Hvalid. cbn [negb].
    destruct (get_area_id entity device_registry) as [a | e]; [| done].
    cbn [mbind result_bind].
    destruct (negb (bool_decide (a = Some area_id))); [apply IH |].
    destruct domains as [ds |]; [| done].
    destruct (negb (py_in (RegistryEntry.domain entity) ds)); apply IH.
  - cbn [get_all_entities_loop]. rewrite Hvalid. cbn [negb]. apply IH.
Qed.

(** X3: disabled entities do not count at all, with or without a list of
    domains: [get_all_entities] returns or raises the same on the registry
    and on the registry without its disabled entities, so the device id of
    a disabled entity is never looked up. *)
Theorem get_all_entities_ignores_disabled (entity_registry : EntityRegistry.t)
    (device_registry : DeviceRegistry.t) (area_id : string)
    (domains : option (list string)) :
  get_all_entities entity_registry device_registry area_id domains
  = get_all_entities
      {| EntityRegistry.entities :=
           List.filter (λ p, negb (RegistryEntry.disabled p.2))
             (EntityRegistry.entities entity_registry) |}
      device_registry area_id domains.
Proof.
  unfold get_all_entities. cbn [EntityRegistry.entities].
  rewrite get_all_entities_loop_enabled.
  (* [is_valid] and the negation of [disabled] are the same test *)
  reflexivity.
Qed.

(** Without a list of domains the loop cannot keep an entity: it raises
    [TypeError] on the first enabled entity of the area. *)
Lemma get_all_entities_loop_no_domains (items : list (string * RegistryEntry.t))
    (device_registry : DeviceRegistry.t) (area_id : string)
    (acc l : list RegistryEntry.t) :
  get_all_entities_loop items device_registry area_id None acc = Ok l →
  l = acc
  ∧ ∀ entity_id E,
      (entity_id, E) ∈ items →
      RegistryEntry.disabled E = false →
      get_area_id E device_registry ≠ Ok (Some area_id).
Proof.
  induction items as [| [entity_id entity] rest IH].
  - intros [= ->]. split; [done |]. intros i E Hin. by apply elem_of_nil in Hin.
  - cbn [get_all_entities_loop]. unfold is_valid.
    destruct (RegistryEntry.disabled entity) eqn:Hdis; cbn [negb].
    + intros H. destruct (IH H) as [-> Hrest]. split; [done |].
      intros i E Hin HE.
      apply elem_of_cons in Hin as [[= -> ->] | Hin]; [congruence |].
      by eapply Hrest.
    + destruct (get_area_id entity device_registry) as [a | e] eqn:Harea;
        [| done].
      cbn [mbind result_bind]. case_bool_decide as Ha; cbn [negb]; [done |].
      intros H. destruct (IH H) as [-> Hrest]. split; [done |].
      intros i E Hin HE.
      apply elem_of_cons in Hin as [[= -> ->] | Hin]; [congruence |].
      by eapply Hrest.
Qed.

(** X4: called without [domains], which then is [None], [get_all_entities]
    never returns an entity: when it returns, the result is empty and no
    enabled entity of the registry resolves to the area. *)
Theorem get_all_entities_default_domains (entity_registry : EntityRegistry.t)
    (device_registry : DeviceRegistry.t) (area_id : string)
    (l : list RegistryEntry.t) :
  get_all_entities entity_registry device_registry area_id None = Ok l →
  l = []
  ∧ ∀ entity_id E,
      (entity_id, E) ∈ EntityRegistry.entities entity_registry →
      RegistryEntry.disabled E = false →
      get_area_id E device_registry ≠ Ok (Some area_id).
Proof. apply get_all_entities_loop_no_domains. Qed.

(** X5: an entity is a member of one area at most: two calls on the same
    registries that both return the entity were asked for the same area. *)
Theorem get_all_entities_one_area (entity_registry : EntityRegistry.t)
    (device_registry : DeviceRegistry.t) (a b : string)
    (ds ds' : list string) (l l' : list RegistryEntry.t) (E : RegistryEntry.t) :
  get_all_entities entity_registry device_registry a (Some ds) = Ok l →
  get_all_entities entity_registry device_registry b (Some ds') = Ok l' →
  E ∈ l → E ∈ l' → a = b.
Proof.
  intros Hl Hl' HE HE'.
  apply (get_all_entities_loop_returns _ _ _ _ _ _ Hl) in HE
    as [HE | (i & _ & _ & _ & Ha)]; [by apply elem_of_nil in HE |].
  apply (get_all_entities_loop_returns _ _ _ _ _ _ Hl') in HE'
    as [HE' | (j & _ & _ & _ & Hb)]; [by apply elem_of_nil in HE' |].
  congruence.
Qed.

(** Filtering keeps a list without repeated keys so. *)
Lemma NoDup_map_filter {A B : Type} (f : A → B) (P : A → bool) (xs : list A) :
  NoDup (map f xs) → NoDup (map f (List.filter P xs)).
Proof.
  induction xs as [| x xs IH]; [done |].
  cbn [map List.filter]. rewrite NoDup_cons. intros [Hx Hxs].
  destruct (P x); [| by apply IH].
  cbn [map]. apply NoDup_cons. split; [| by apply IH].
  intros Hin. apply Hx.
  apply list_elem_of_fmap in Hin as (y & -> & Hy).
  apply list_elem_of_fmap_2.
  apply list_elem_of_In, filter_In in Hy as [Hy _]. by apply list_elem_of_In.
Qed.

(** X6: when the entries of the registry have pairwise distinct entity
    ids, so have the entities that [get_all_entities] returns. *)
Theorem get_all_entities_distinct_ids (entity_registry : EntityRegistry.t)
    (device_registry : DeviceRegistry.t) (area_id : string)
    (ds : list string) (l : list RegistryEntry.t) :
  NoDup (map (λ p, RegistryEntry.entity_id p.2)
           (EntityRegistry.entities entity_registry)) →
  get_all_entities entity_registry device_registry area_id (Some ds) = Ok l →
  NoDup (map RegistryEntry.entity_id l).
Proof.
  intros Hids H. unfold get_all_entities in H.
  rewrite (get_all_entities_loop_filter _ _ _ _ _ _ H). cbn [app].
  apply NoDup_map_filter. by rewrite map_map.
Qed.

(** * Further properties of the presence tracker *)

Section TrackerExtras.

Variable DOMAINS : list string.
Variable PRESENCE_BINARY_SENSOR_DEVICE_CLASSES : list string.
Variable PRESENCE_BINARY_SENSOR_STATES : list string.
Variable mem : str_heap.

Local Abbreviation is_active r :=
  (str_value mem r ∈ PRESENCE_BINARY_SENSOR_STATES).
Local Abbreviation selected :=
  (select_presence_indicating PRESENCE_BINARY_SENSOR_DEVICE_CLASSES).
Local Abbreviation all_off :=
  (all_states_are_off PRESENCE_BINARY_SENSOR_STATES mem).
Local Abbreviation handle :=
  (handle_presence_state_change PRESENCE_BINARY_SENSOR_STATES mem).
Local Abbreviation track :=
  (track_presence_sensor_state PRESENCE_BINARY_SENSOR_DEVICE_CLASSES
     PRESENCE_BINARY_SENSOR_STATES mem).
Local Abbreviation init :=
  (initialize DOMAINS PRESENCE_BINARY_SENSOR_DEVICE_CLASSES
     PRESENCE_BINARY_SENSOR_STATES mem).
Local Abbreviation presence_of env := (AutoArea.presence (Tracking.self env)).

(** The tracked sensor behind a failed re-check. *)
Lemma all_states_are_off_false_inv (hass : HomeAssistant.t)
    (es : list RegistryEntry.t) :
  all_off hass es = false →
  ∃ e s, e ∈ es
         ∧ HomeAssistant.states_get hass (RegistryEntry.entity_id e) = Some s
         ∧ is_active (State.state s).
Proof.
  induction es as [| entity es IH]; [done |].
  destruct (HomeAssistant.states_get hass (RegistryEntry.entity_id entity))
    as [s0 |] eqn:Hget.
  - rewrite (all_states_are_off_cons _ _ _ _ _ _ Hget).
    destruct (state_is_off PRESENCE_BINARY_SENSOR_STATES mem s0) eqn:Hoff.
    + simpl. intros H. destruct (IH H) as (e & s & He & ?).
      exists e, s. split; [by apply list_elem_of_further | done].
    + intros _. exists entity, s0. split; [apply list_elem_of_here |].
      split; [done |]. unfold state_is_off in Hoff.
      apply negb_false_iff in Hoff. by apply py_in_true.
  - rewrite (all_states_are_off_skip _ _ _ _ _ Hget). intros H.
    destruct (IH H) as (e & s & He & ?).
    exists e, s. split; [by apply list_elem_of_further | done].
Qed.

(** The re-check in terms of the entity ids alone. *)
Lemma all_states_are_off_ids (hass : HomeAssistant.t)
    (es : list RegistryEntry.t) :
  all_off hass es = true ↔
  ∀ i s, i ∈ map RegistryEntry.entity_id es →
         HomeAssistant.states_get hass i = Some s →
         ¬ is_active (State.state s).
Proof.
  rewrite all_states_are_off_true. split.
  - intros H i s Hi. apply list_elem_of_fmap in Hi as (e & -> & He).
    by apply H.
  - intros H e s He. apply H. by apply list_elem_of_fmap_2.
Qed.

(** X7: the re-check looks at the set of entity ids only: two lists of
    sensors with the same ids, in any order and with any repetitions, give
    the same answer. *)
Theorem all_states_are_off_same_ids (hass : HomeAssistant.t)
    (es es' : list RegistryEntry.t) :
  (∀ i, i ∈ map RegistryEntry.entity_id es
        ↔ i ∈ map RegistryEntry.entity_id es') →
  all_off hass es = all_off hass es'.
Proof.
  intros Hids.
  destruct (all_off hass es) eqn:H, (all_off hass es') eqn:H'; try done.
  - rewrite <- H'. symmetry. apply all_states_are_off_ids.
    intros i s Hi. apply (proj1 (all_states_are_off_ids hass es) H).
    by apply Hids.
  - rewrite <- H. apply all_states_are_off_ids.
    intros i s Hi. apply (proj1 (all_states_are_off_ids hass es') H').
    by apply Hids.
Qed.

(** X8: the re-check of two lists put together succeeds when it succeeds
    on both. *)
Theorem all_states_are_off_app (hass : HomeAssistant.t)
    (es es' : list RegistryEntry.t) :
  all_off hass (es ++ es') = all_off hass es && all_off hass es'.
Proof.
  induction es as [| entity es IH]; [done |].
  cbn [app].
  destruct (HomeAssistant.states_get hass (RegistryEntry.entity_id entity))
    as [s0 |] eqn:Hget.
  - rewrite !(all_states_are_off_cons _ _ _ _ _ _ Hget), IH.
    by rewrite andb_assoc.
  - by rewrite !(all_states_are_off_skip _ _ _ _ _ Hget).
Qed.

(** X9: delivering an event a second time, against the same state machine,
    changes nothing more: the outcome and the state are those of the first
    delivery. *)
Theorem handle_twice (hass : HomeAssistant.t) (entity_id : string)
    (from_state to_state : option State.t) (env : Tracking.t) :
  handle hass entity_id from_state to_state
    (handle hass entity_id from_state to_state env).2
  = handle hass entity_id from_state to_state env.
Proof.
  unfold handle_presence_state_change.
  destruct to_state as [t |]; [| done].
  destruct (py_is _ _); [done |].
  destruct (py_in _ _).
  - destruct (presence_of env) eqn:Hp; cbn [negb snd]; [by rewrite Hp |].
    done.
  - destruct (all_off hass (Tracking.presence_indicating_entities env))
      eqn:Hall; cbn [snd].
    + destruct (presence_of env) eqn:Hp; cbn [snd].
      * cbn [Tracking.set_presence Tracking.presence_indicating_entities].
        by rewrite Hall.
      * by rewrite Hall, Hp.
    + by rewrite Hall.
Qed.

(** X10: presence goes from false to true only on an event whose new state
    is there, holds an active token and is not the very object of the
    previous token. *)
Theorem presence_rises_only_on_active (hass : HomeAssistant.t)
    (entity_id : string) (from_state to_state : option State.t)
    (env : Tracking.t) :
  presence_of env = false →
  presence_of (handle hass entity_id from_state to_state env).2 = true →
  ∃ t, to_state = Some t
       ∧ is_active (State.state t)
       ∧ previous_state_of from_state ≠ State.state t.
Proof.
  intros Hp. unfold handle_presence_state_change, py_is.
  destruct to_state as [t |]; cbn [snd]; [| congruence].
  case_bool_decide as Hobj; cbn [snd]; [congruence |].
  destruct (py_in _ _) eqn:Hact.
  - intros _. exists t. split; [done |]. split; [by apply py_in_true | done].
  - destruct (all_off hass _); rewrite ?Hp; cbn [snd]; congruence.
Qed.

(** X11: after an event on a tracked sensor whose live state is the new
    state, with two distinct token objects, presence is true only with a
    tracked sensor whose live state is active. *)
Theorem presence_after_event_sound (hass : HomeAssistant.t)
    (sensor : RegistryEntry.t) (from_state : option State.t)
    (to_state : State.t) (env : Tracking.t) :
  sensor ∈ Tracking.presence_indicating_entities env →
  HomeAssistant.states_get hass (RegistryEntry.entity_id sensor)
    = Some to_state →
  previous_state_of from_state ≠ State.state to_state →
  presence_of
    (handle hass (RegistryEntry.entity_id sensor) from_state (Some to_state)
       env).2 = true →
  ∃ e s, e ∈ Tracking.presence_indicating_entities env
         ∧ HomeAssistant.states_get hass (RegistryEntry.entity_id e) = Some s
         ∧ is_active (State.state s).
Proof.
  intros Hin Hget Hobj.
  rewrite (handle_distinct_objects _ _ _ _ _ _ _ Hobj).
  destruct (py_in _ _) eqn:Hact.
  - intros _. exists sensor, to_state.
    split; [done |]. split; [done | by apply py_in_true].
  - destruct (all_off hass _) eqn:Hall.
    + destruct (presence_of env) eqn:Hp; cbn [snd]; [done | congruence].
    + intros _. by apply all_states_are_off_false_inv.
Qed.

(** X12: as long as, at each event, some tracked sensor has an active live
    state, presence once true stays true through any sequence of events,
    whatever the events are. *)
Theorem presence_stays_while_active
    (events : list (HomeAssistant.t * string * option State.t * option State.t))
    (env : Tracking.t) :
  presence_of env = true →
  Forall (λ ev,
            ∃ e s, e ∈ Tracking.presence_indicating_entities env
                   ∧ HomeAssistant.states_get ev.1.1.1
                       (RegistryEntry.entity_id e) = Some s
                   ∧ is_active (State.state s)) events →
  length (presence_trace PRESENCE_BINARY_SENSOR_STATES mem events env)
    = length events
  ∧ Forall (λ b, b = true)
      (presence_trace PRESENCE_BINARY_SENSOR_STATES mem events env).
Proof.
  intros Hp Hev. revert env Hp Hev.
  induction events as [| [[[hass entity_id] from_state] to_state] rest IH];
    intros env Hp Hev; [by split |].
  apply Forall_cons in Hev as [(e & s & He & Hs & Hact) Hrest].
  cbn [fst] in Hs. cbn [presence_trace].
  set (env' := (handle hass entity_id from_state to_state env).2).
  assert (presence_of env' = true
          ∧ Tracking.presence_indicating_entities env'
            = Tracking.presence_indicating_entities env) as [Hp' Htracked].
  { subst env'. unfold handle_presence_state_change.
    destruct to_state as [t |]; [| done].
    destruct (py_is _ _); [done |].
    destruct (py_in _ _); [by rewrite Hp |].
    by rewrite (all_states_are_off_false _ _ _ _ _ _ He Hs Hact). }
  destruct (IH env' Hp') as [Hlen Hall].
  { by rewrite Htracked. }
  split; [cbn [length]; by rewrite Hlen |].
  by apply Forall_cons.
Qed.

(** Whatever the area had before, [track_presence_sensor_state]
    changes its presence only: with a sensor selected presence is the
    negation of the re-check and a subscription to the selected ids is
    registered; with none selected the area is left as it is, its former
    presence included, and nothing is registered. *)
Lemma track_result (hass : HomeAssistant.t) (self : AutoArea.t) :
  let tracked := selected (AutoArea.entities self) in
  (track hass self).1
  = AutoArea.set_presence
      (match tracked with
       | [] => AutoArea.presence self
       | _ :: _ => negb (all_off hass tracked)
       end) self
  ∧ (track hass self).2
    = match tracked with
      | [] => None
      | _ :: _ =>
          Some {| Subscription.entity_ids := map RegistryEntry.entity_id tracked;
                  Subscription.captured := tracked |}
      end.
Proof.
  intros tracked. unfold track_presence_sensor_state. fold tracked.
  destruct tracked as [| e es]; cbn [fst snd].
  - split; [by destruct self | done].
  - split; [| done]. by destruct (all_off hass (e :: es)).
Qed.

(** X13: one dangling entity in the registry makes [initialize] raise
    [KeyError] for every area: the area keeps what it had and nothing is
    subscribed. *)
Theorem initialize_raises_on_dangling (hass : HomeAssistant.t)
    (entity_registry : EntityRegistry.t) (device_registry : DeviceRegistry.t)
    (self : AutoArea.t) (entity_id : string) (E : RegistryEntry.t)
    (d : string) :
  (entity_id, E) ∈ EntityRegistry.entities entity_registry →
  dangling device_registry E d →
  ∃ d', DeviceRegistry.devices device_registry !! d' = None
        ∧ init hass entity_registry device_registry self
          = (Raise (KeyError d'), self, None).
Proof.
  intros Hin (Hdis & Ha & Hd & Hl). unfold initialize, get_all_entities.
  destruct (proj1 (get_all_entities_loop_raises
                     (EntityRegistry.entities entity_registry) device_registry
                     (AutoArea.area_id self) DOMAINS []))
    as [e He]; [by exists entity_id, E, d |].
  rewrite He.
  destruct (get_all_entities_loop_raise_inv _ _ _ _ _ _ He)
    as (i & E' & d' & _ & (_ & _ & _ & Hl') & ->).
  by exists d'.
Qed.

(** X14: when the entities of the area resolve, [initialize] returns with
    the area holding them, its presence the negation of the re-check over
    the selected sensors, and a subscription exactly when a sensor is
    selected; every sensor it then tracks is an enabled entity of an
    accepted domain that resolves to the area. *)
Theorem initialize_tracks_members (hass : HomeAssistant.t)
    (entity_registry : EntityRegistry.t) (device_registry : DeviceRegistry.t)
    (area : AreaEntry.t) (es : list RegistryEntry.t) :
  get_all_entities entity_registry device_registry (AreaEntry.id area)
    (Some DOMAINS) = Ok es →
  ∃ self sub,
    init hass entity_registry device_registry (AutoArea_init area)
    = (Ok (), self, sub)
    ∧ AutoArea.area_id self = AreaEntry.id area
    ∧ AutoArea.area_name self = AreaEntry.name area
    ∧ AutoArea.entities self = es
    ∧ AutoArea.presence self = negb (all_off hass (selected es))
    ∧ (sub = None ↔ selected es = [])
    ∧ ∀ s, sub = Some s →
        Subscription.captured s = selected es
        ∧ Subscription.entity_ids s
          = map RegistryEntry.entity_id (selected es)
        ∧ ∀ E, E ∈ Subscription.captured s →
            RegistryEntry.disabled E = false
            ∧ RegistryEntry.domain E ∈ DOMAINS
            ∧ get_area_id E device_registry = Ok (Some (AreaEntry.id area))
            ∧ is_presence_indicating PRESENCE_BINARY_SENSOR_DEVICE_CLASSES E
              = true.
Proof.
  intros Hres. unfold initialize. cbn [AutoArea_init AutoArea.area_id].
  rewrite Hres. unfold track_presence_sensor_state.
  cbn [AutoArea.set_entities AutoArea.entities].
  assert (∀ E, E ∈ selected es →
            RegistryEntry.disabled E = false
            ∧ RegistryEntry.domain E ∈ DOMAINS
            ∧ get_area_id E device_registry = Ok (Some (AreaEntry.id area))
            ∧ is_presence_indicating PRESENCE_BINARY_SENSOR_DEVICE_CLASSES E
              = true) as Hmembers.
  { intros E HE.
    apply select_presence_indicating_elem in HE as [HE Hsel].
    apply (get_all_entities_loop_returns _ _ _ _ _ _ Hres) in HE
      as [HE | (i & _ & ? & ? & ?)]; [by apply elem_of_nil in HE | done]. }
  destruct (selected es) as [| e tracked] eqn:Hsel.
  - eexists _, None. split; [reflexivity |]. by repeat split.
  - eexists _, (Some _). split; [reflexivity |].
    cbn [AutoArea.set_presence AutoArea.area_id AutoArea.area_name
         AutoArea.entities AutoArea.presence].
    do 3 (split; [reflexivity |]).
    split; [by destruct (all_off hass (e :: tracked)) |].
    split; [done |].
    intros s [= <-]. cbn [Subscription.captured Subscription.entity_ids].
    do 2 (split; [reflexivity |]). exact Hmembers.
Qed.

(** X15: when the entities of an area have pairwise distinct entity ids,
    the subscription that [track_presence_sensor_state] registers names no
    entity id twice, and it names ids of entities of the area only. *)
Theorem subscription_ids_distinct (hass : HomeAssistant.t)
    (self : AutoArea.t) (s : Subscription.t) :
  NoDup (map RegistryEntry.entity_id (AutoArea.entities self)) →
  (track hass self).2 = Some s →
  NoDup (Subscription.entity_ids s)
  ∧ Subscription.entity_ids s ≠ []
  ∧ ∀ i, i ∈ Subscription.entity_ids s →
         i ∈ map RegistryEntry.entity_id (AutoArea.entities self).
Proof.
  intros Hids. unfold track_presence_sensor_state.
  destruct (selected (AutoArea.entities self)) as [| e es] eqn:Hsel;
    cbn [snd]; [done |].
  intros [= <-]. cbn [Subscription.entity_ids].
  change (RegistryEntry.entity_id e :: map RegistryEntry.entity_id es)
    with (map RegistryEntry.entity_id (e :: es)).
  split; [rewrite <- Hsel; by apply NoDup_map_filter |].
  split; [done |]. rewrite <- Hsel.
  intros i Hi. apply list_elem_of_fmap in Hi as (E & -> & HE).
  apply list_elem_of_fmap_2.
  by apply select_presence_indicating_elem in HE as [HE _].
Qed.

End TrackerExtras.

(** ** The further properties on the sample data *)

Lemma get_all_entities_filter_witness :
  get_all_entities (registry_of [m1; plain; inherited]) sample_devices
    "garage" (Some sample_domains) = Ok []
  ∧ [] = List.filter (is_member sample_devices "garage" sample_domains)
           (map snd
              (EntityRegistry.entities (registry_of [m1; plain; inherited]))).
Proof.
  assert (get_all_entities (registry_of [m1; plain; inherited]) sample_devices
            "garage" (Some sample_domains) = Ok []) as H
    by (vm_compute; reflexivity).
  split; [exact H |].
  exact (get_all_entities_filter _ _ _ _ _ H).
Defined.

Lemma get_all_entities_default_domains_witness :
  get_all_entities (registry_of [m1; inherited]) sample_devices "garage" None
  = Ok []
  ∧ ∀ entity_id E,
      (entity_id, E) ∈ EntityRegistry.entities (registry_of [m1; inherited]) →
      RegistryEntry.disabled E = false →
      get_area_id E sample_devices ≠ Ok (Some "garage").
Proof.
  assert (get_all_entities (registry_of [m1; inherited]) sample_devices
            "garage" None = Ok []) as H
    by (vm_compute; reflexivity).
  split; [exact H |].
  exact (proj2 (get_all_entities_default_domains _ _ _ _ H)).
Defined.

Lemma get_all_entities_one_area_witness : "kitchen" = "kitchen".
Proof.
  apply (get_all_entities_one_area (registry_of [m1; inherited])
           sample_devices "kitchen" "kitchen" sample_domains
           ["binary_sensor"] [m1; inherited] [m1; inherited] m1);
    [vm_compute; reflexivity | vm_compute; reflexivity
    | apply list_elem_of_here | apply list_elem_of_here].
Defined.

Lemma all_states_are_off_same_ids_witness :
  all_states_are_off sample_states sample_mem
    (hass_with (Some state_off) (Some state_on)) [m1; m2]
  = all_states_are_off sample_states sample_mem
      (hass_with (Some state_off) (Some state_on)) [m2; m1; m1].
Proof.
  apply (all_states_are_off_same_ids sample_states sample_mem
           (hass_with (Some state_off) (Some state_on))
           [m1; m2] [m2; m1; m1]).
  intros i. cbn [map]. rewrite !elem_of_cons. tauto.
Defined.

Lemma presence_rises_only_on_active_witness :
  ∃ t, Some state_on = Some t
       ∧ str_value sample_mem (State.state t) ∈ sample_states
       ∧ previous_state_of (Some state_off) ≠ State.state t.
Proof.
  exact (presence_rises_only_on_active sample_states sample_mem
           (hass_with (Some state_on) (Some state_off)) "binary_sensor.m1"
           (Some state_off) (Some state_on) (kitchen_tracking false)
           eq_refl eq_refl).
Defined.

Lemma presence_after_event_sound_witness :
  ∃ e s, e ∈ Tracking.presence_indicating_entities (kitchen_tracking false)
         ∧ HomeAssistant.states_get
             (hass_with (Some state_on) (Some state_off))
             (RegistryEntry.entity_id e) = Some s
         ∧ str_value sample_mem (State.state s) ∈ sample_states.
Proof.
  apply (presence_after_event_sound sample_states sample_mem
           (hass_with (Some state_on) (Some state_off)) m1
           (Some state_off) state_on (kitchen_tracking false));
    [apply list_elem_of_here | reflexivity | discriminate | reflexivity].
Defined.

Lemma presence_stays_while_active_witness :
  Forall (λ b, b = true)
    (presence_trace sample_states sample_mem
       [ (hass_with (Some state_off) (Some state_on), "binary_sensor.m1",
          Some state_on, Some state_off);
         (hass_with None (Some state_on), "binary_sensor.m1",
          Some state_off, None) ]
       (kitchen_tracking true)).
Proof.
  apply (presence_stays_while_active sample_states sample_mem
           [ (hass_with (Some state_off) (Some state_on), "binary_sensor.m1",
              Some state_on, Some state_off);
             (hass_with None (Some state_on), "binary_sensor.m1",
              Some state_off, None) ]
           (kitchen_tracking true) eq_refl).
  repeat apply Forall_cons_2; [| | apply Forall_nil_2];
    (exists m2, state_on;
     split; [apply list_elem_of_further, list_elem_of_here |];
     split; [reflexivity | closed_fact]).
Defined.

Lemma initialize_raises_on_dangling_witness :
  ∃ d', DeviceRegistry.devices sample_devices !! d' = None
        ∧ initialize sample_domains sample_device_classes sample_states
            sample_mem (hass_with None None) (registry_of [m1; orphan])
            sample_devices (AutoArea_init garage)
          = (Raise (KeyError d'), AutoArea_init garage, None).
Proof.
  apply (initialize_raises_on_dangling sample_domains sample_device_classes
           sample_states sample_mem (hass_with None None)
           (registry_of [m1; orphan]) sample_devices (AutoArea_init garage)
           "binary_sensor.orphan" orphan "ghost").
  - apply list_elem_of_further, list_elem_of_here.
  - repeat split; vm_compute; reflexivity.
Defined.

Lemma initialize_tracks_members_witness :
  ∃ self sub,
    initialize sample_domains sample_device_classes sample_states sample_mem
      (hass_with (Some state_off) (Some state_on)) (registry_of [m1; m2; plain])
      sample_devices (AutoArea_init kitchen)
    = (Ok (), self, sub)
    ∧ AutoArea.presence self = true
    ∧ sub = Some {| Subscription.entity_ids :=
                      ["binary_sensor.m1"; "binary_sensor.m2"];
                    Subscription.captured := [m1; m2] |}.
Proof.
  destruct (initialize_tracks_members sample_domains sample_device_classes
              sample_states sample_mem
              (hass_with (Some state_off) (Some state_on))
              (registry_of [m1; m2; plain]) sample_devices kitchen
              [m1; m2; plain])
    as (self & sub & Hinit & _); [vm_compute; reflexivity |].
  exists self, sub. split; [exact Hinit |].
  vm_compute in Hinit. injection Hinit as <- <-. split; reflexivity.
Defined.

Lemma get_all_entities_distinct_ids_witness :
  NoDup (map RegistryEntry.entity_id [m1; inherited]).
Proof.
  assert (NoDup (map (λ p : string * RegistryEntry.t, RegistryEntry.entity_id p.2)
                   (EntityRegistry.entities (registry_of [m1; inherited]))))
    as Hids.
  { cbn. repeat (apply NoDup_cons; split; [closed_fact |]). apply NoDup_nil_2. }
  apply (get_all_entities_distinct_ids (registry_of [m1; inherited])
           sample_devices "kitchen" sample_domains [m1; inherited] Hids).
  vm_compute; reflexivity.
Defined.

Lemma subscription_ids_distinct_witness :
  NoDup ["binary_sensor.m1"; "binary_sensor.m2"].
Proof.
  assert (NoDup (map RegistryEntry.entity_id
                   (AutoArea.entities (kitchen_area false [m1; m2; plain]))))
    as Hids.
  { cbn. repeat (apply NoDup_cons; split; [closed_fact |]). apply NoDup_nil_2. }
  exact (proj1 (subscription_ids_distinct sample_device_classes sample_states
                  sample_mem (hass_with None None)
                  (kitchen_area false [m1; m2; plain])
                  {| Subscription.entity_ids :=
                       ["binary_sensor.m1"; "binary_sensor.m2"];
                     Subscription.captured := [m1; m2] |}
                  Hids eq_refl)).
Defined.
